(** * The crawl-frontier scheduler for Scrapy

    A shallow embedding of
    [crawlfrontier/contrib/scrapy/schedulers/frontier.py]: the
    [StatsManager] helper and the [CrawlFrontierScheduler] class, with the
    properties of admission ([enqueue_request]), dispatch ([next_request]),
    failure reporting ([process_exception]) and shutdown ([close]).

    The scheduler talks to three collaborators that live outside the file:
    the frontier manager, the Scrapy stats collector and the Scrapy log.
    The frontier is a parameter of the development (a type class over an
    arbitrary frontier state); every call the scheduler makes on a
    collaborator is recorded, in program order, in the list of [Call]s an
    operation returns. *)

From stdpp Require Import base option list gmap strings pretty.
From Stdlib Require Import ZArith Lia.

Local Open Scope Z_scope.

(** ** Data model *)

(** A Scrapy [Request]: only its url and its [meta] dictionary matter to
    the scheduler.  [meta] is a Python dict from string keys to integers
    (the redirect middleware stores the hop count under
    ["redirect_times"]). *)
Record Request : Type := {
  url : string;
  meta : gmap string Z
}.

(** A Scrapy [Response], reduced to the one attribute the scheduler reads. *)
Record Response : Type := {
  status : Z
}.

(** An element produced by a spider callback: a [Request] (a link to
    follow) or anything else (an item). *)
Inductive Element : Type :=
| ElementRequest (request : Request)
| ElementItem (item : string).

(** Outcome of evaluating a Python expression that may raise. *)
Inductive PyResult (A : Type) : Type :=
| Returns (value : A)
| Raises.
Arguments Returns {A} value.
Arguments Raises {A}.

(** The object handed to [process_exception].  It is an arbitrary Python
    object, so the attribute chain [exception.__class__.__name__] may
    itself raise; [class_name] is the outcome of evaluating it. *)
Record PyException : Type := {
  class_name : PyResult string
}.

(** [scrapy.log] levels used by the scheduler. *)
Inductive LogLevel : Type := INFO | WARNING.

(** Calls made on the collaborators.  [FrontierGetNextRequests] carries
    the batch the frontier answered with. *)
Inductive Call : Type :=
| LogMsg (message : string) (level : LogLevel)
| FrontierAddSeeds (requests : list Request)
| FrontierGetNextRequests (returned : list Request)
| FrontierPageCrawled (response : Response) (links : list Request)
| FrontierRequestError (request : Request) (error : string)
| FrontierStart (spider : string)
| FrontierStop (reason : string)
| StatsIncValue (key : string) (count : Z)
| StatsSetValue (key : string) (value : Z).

(** The frontier manager, as the scheduler uses it: three readable
    attributes of [frontier.manager] and six methods.  [F] is the
    frontier's own state, which every method may change. *)
Class FrontierManager (F : Type) : Type := {
  finished : F → bool;
  iteration : F → Z;
  auto_start : F → bool;
  add_seeds : list Request → F → F;
  get_next_requests : F → list Request * F;
  page_crawled : Response → list Request → F → F;
  request_error : Request → string → F → F;
  start : string → F → F;
  stop : string → F → F
}.

(** The parts of the Scrapy crawler the scheduler reads:
    [crawler.settings.get('REDIRECT_ENABLED')] (by its truth value) and
    [crawler.engine.downloader.total_concurrency]. *)
Record Crawler : Type := {
  REDIRECT_ENABLED : bool;
  total_concurrency : Z
}.

Definition STATS_PREFIX : string := "crawlfrontier".

(** ** StatsManager *)

Module StatsManager.

(** [self.stats] is the crawler's collector; what is sent to it is
    returned as a list of [Call]s. *)
Record t : Type := {
  prefix : string
}.

Definition __init__ : t := {| prefix := STATS_PREFIX |}.

Definition _get_stats_name (self : t) (variable : string) : string :=
  prefix self +:+ "/" +:+ variable.

Definition _inc_value (self : t) (variable : string) (count : Z) : list Call :=
  [StatsIncValue (_get_stats_name self variable) count].

Definition _set_value (self : t) (variable : string) (value : Z) : list Call :=
  [StatsSetValue (_get_stats_name self variable) value].

Definition add_seeds (self : t) (count : Z) : list Call :=
  _inc_value self "seeds_count" count.

Definition add_crawled_page (self : t) (status_code n_links : Z) : list Call :=
  _inc_value self "crawled_pages_count" 1 ++
  _inc_value self ("crawled_pages_count/" +:+ pretty status_code) 1 ++
  _inc_value self "links_extracted_count" n_links.

Definition add_redirected_requests (self : t) (count : Z) : list Call :=
  _inc_value self "redirected_requests_count" count.

Definition add_returned_requests (self : t) (count : Z) : list Call :=
  _inc_value self "returned_requests_count" count.

Definition add_request_error (self : t) (error_code : string) : list Call :=
  _inc_value self "request_errors_count" 1 ++
  _inc_value self ("request_errors_count/" +:+ error_code) 1.

Definition set_iterations (self : t) (iterations : Z) : list Call :=
  _set_value self "iterations" iterations.

Definition set_pending_requests (self : t) (pending_requests : Z) : list Call :=
  _set_value self "pending_requests_count" pending_requests.

End StatsManager.

(** The values a Scrapy in-memory collector holds after a sequence of
    calls: [inc_value] adds to the stored value (0 when the key is new),
    [set_value] overwrites it.  Calls on other collaborators leave the
    dictionary alone. *)
Definition collect (stats : gmap string Z) (c : Call) : gmap string Z :=
  match c with
  | StatsIncValue key count => <[key := default 0 (stats !! key) + count]> stats
  | StatsSetValue key value => <[key := value]> stats
  | _ => stats
  end.

Definition collected (calls : list Call) (stats : gmap string Z) : gmap string Z :=
  foldl collect stats calls.

(** ** CrawlFrontierScheduler *)

Module Scheduler.

(** The scheduler object.  [_pending_requests] is the [deque]: its head
    is the left end. *)
Record t (F : Type) : Type := {
  crawler : Crawler;
  stats_manager : StatsManager.t;
  _pending_requests : list Request;
  redirect_enabled : bool;
  frontier : F
}.
Arguments crawler {F} _.
Arguments stats_manager {F} _.
Arguments _pending_requests {F} _.
Arguments redirect_enabled {F} _.
Arguments frontier {F} _.

(** A method: it reads and updates the object, may return a value, and
    emits calls on the collaborators. *)
Definition M (F A : Type) : Type := t F → A * t F * list Call.

(** The three components of a finished method call. *)
Definition result_of {F A : Type} (x : A * t F * list Call) : A := x.1.1.
Definition state_of {F A : Type} (x : A * t F * list Call) : t F := x.1.2.
Definition calls_of {F A : Type} (x : A * t F * list Call) : list Call := x.2.

Section Methods.
Context {F : Type} `{FrontierManager F}.

#[export] Instance M_ret : MRet (M F) := λ A a s, (a, s, []).
#[export] Instance M_bind : MBind (M F) := λ A B k m s,
  let '(a, s1, c1) := m s in
  let '(b, s2, c2) := k a s1 in
  (b, s2, c1 ++ c2).

Definition get : M F (t F) := λ s, (s, s, []).
Definition call (cs : list Call) : M F unit := λ s, (tt, s, cs).

(** Assignments to [self._pending_requests] and to the state behind
    [self.frontier]. *)
Definition with_pending (q : list Request) (s : t F) : t F :=
  {| crawler := crawler s; stats_manager := stats_manager s;
     _pending_requests := q; redirect_enabled := redirect_enabled s;
     frontier := frontier s |}.
Definition with_frontier (f : F) (s : t F) : t F :=
  {| crawler := crawler s; stats_manager := stats_manager s;
     _pending_requests := _pending_requests s;
     redirect_enabled := redirect_enabled s;
     frontier := f |}.
Definition set_pending (q : list Request) : M F unit := λ s, (tt, with_pending q s, []).
Definition set_frontier (f : F) : M F unit := λ s, (tt, with_frontier f s, []).

(** Method calls on [self.frontier]: the frontier moves to its next
    state and the call is recorded. *)
Definition frontier_add_seeds (requests : list Request) : M F unit :=
  s ← get;
  set_frontier (add_seeds requests (frontier s));;
  call [FrontierAddSeeds requests].

Definition frontier_get_next_requests : M F (list Request) :=
  s ← get;
  let '(batch, f) := get_next_requests (frontier s) in
  set_frontier f;;
  call [FrontierGetNextRequests batch];;
  mret batch.

Definition frontier_page_crawled (response : Response) (links : list Request) : M F unit :=
  s ← get;
  set_frontier (page_crawled response links (frontier s));;
  call [FrontierPageCrawled response links].

Definition frontier_request_error (request : Request) (error : string) : M F unit :=
  s ← get;
  set_frontier (request_error request error (frontier s));;
  call [FrontierRequestError request error].

Definition frontier_start (spider : string) : M F unit :=
  s ← get;
  set_frontier (start spider (frontier s));;
  call [FrontierStart spider].

Definition frontier_stop (reason : string) : M F unit :=
  s ← get;
  set_frontier (stop reason (frontier s));;
  call [FrontierStop reason].

(** A [for] loop over a list. *)
Fixpoint for_each {A : Type} (l : list A) (body : A → M F unit) : M F unit :=
  match l with
  | [] => mret tt
  | x :: l' => body x;; for_each l' body
  end.

(** [__init__], without the middleware wiring and the warning logged when
    [FRONTIER_SETTINGS] is missing: the frontier manager it builds from
    those settings is the argument [f]. *)
Definition __init__ (crawler : Crawler) (f : F) : t F :=
  {| crawler := crawler;
     stats_manager := StatsManager.__init__;
     _pending_requests := [];
     redirect_enabled := REDIRECT_ENABLED crawler;
     frontier := f |}.

Definition __len__ (self : t F) : Z :=
  Z.of_nat (length (_pending_requests self)).

Definition has_pending_requests (self : t F) : bool :=
  bool_decide (__len__ self > 0).

(** [request.meta.get('redirect_times', 0)] *)
Definition redirect_times (request : Request) : Z :=
  default 0 (meta request !! "redirect_times").

Definition _request_is_redirected (request : Request) : bool :=
  bool_decide (redirect_times request > 0).

Definition _add_pending_request (request : Request) : M F unit :=
  s ← get;
  set_pending (_pending_requests s ++ [request]).

Definition _get_pending_request : M F (option Request) :=
  s ← get;
  match _pending_requests s with
  | request :: rest => set_pending rest;; mret (Some request)
  | [] => mret None
  end.

Definition _get_exception_code (exception : PyException) : string :=
  match class_name exception with
  | Returns name => name
  | Raises => "?"
  end.

Definition _get_next_request : M F (option Request) :=
  s ← get;
  (if negb (finished (frontier s)) &&
      bool_decide (__len__ s < total_concurrency (crawler s))
   then
     batch ← frontier_get_next_requests;
     for_each batch _add_pending_request
   else mret tt);;
  _get_pending_request.

Definition enqueue_request (request : Request) : M F bool :=
  s ← get;
  if negb (_request_is_redirected request) then
    frontier_add_seeds [request];;
    call (StatsManager.add_seeds (stats_manager s) 1);;
    mret true
  else if redirect_enabled s then
    _add_pending_request request;;
    call (StatsManager.add_redirected_requests (stats_manager s) 1);;
    mret true
  else mret false.

Definition next_request : M F (option Request) :=
  s ← get;
  request ← _get_next_request;
  match request with
  | Some _ => call (StatsManager.add_returned_requests (stats_manager s) 1)
  | None => mret tt
  end;;
  mret request.

(** The generator, run to exhaustion: the elements it yields, then the
    two reports made once the loop is over. *)
Definition process_spider_output (response : Response) (result : list Element)
  : M F (list Element) :=
  s ← get;
  let links := omap (λ e, match e with ElementRequest r => Some r | _ => None end) result in
  let yielded := omap (λ e, match e with ElementRequest _ => None | _ => Some e end) result in
  frontier_page_crawled response links;;
  call (StatsManager.add_crawled_page (stats_manager s) (status response)
          (Z.of_nat (length links)));;
  mret yielded.

Definition process_exception (request : Request) (exception : PyException) : M F unit :=
  s ← get;
  let error_code := _get_exception_code exception in
  frontier_request_error request error_code;;
  call (StatsManager.add_request_error (stats_manager s) error_code).

Definition open (spider : string) : M F unit :=
  call [LogMsg "Starting frontier" INFO];;
  s ← get;
  if negb (auto_start (frontier s)) then frontier_start spider else mret tt.

Definition close (reason : string) : M F unit :=
  call [LogMsg ("Finishing frontier (" +:+ reason +:+ ")") INFO];;
  frontier_stop reason;;
  s ← get;
  call (StatsManager.set_iterations (stats_manager s) (iteration (frontier s)));;
  call (StatsManager.set_pending_requests (stats_manager s) (__len__ s)).

End Methods.

End Scheduler.

Import Scheduler.

(** ** A host engine driving the scheduler

    The engine calls the scheduler's methods one after the other.  [run]
    plays a list of such calls and keeps, for each, what it returned and
    the calls it made on the collaborators. *)

Inductive Op : Type :=
| OpEnqueue (request : Request)
| OpNext
| OpSpiderOutput (response : Response) (result : list Element)
| OpException (request : Request) (exception : PyException).

Inductive Result : Type :=
| Enqueued (accepted : bool)
| Dispatched (request : option Request)
| Yielded (elements : list Element)
| Reported.

Record Step : Type := {
  step_op : Op;
  step_result : Result;
  step_calls : list Call
}.

Section Engine.
Context {F : Type} `{FrontierManager F}.

Definition step (op : Op) : M F Result :=
  match op with
  | OpEnqueue request => b ← enqueue_request request; mret (Enqueued b)
  | OpNext => r ← next_request; mret (Dispatched r)
  | OpSpiderOutput response result =>
      l ← process_spider_output response result; mret (Yielded l)
  | OpException request exception => process_exception request exception;; mret Reported
  end.

Fixpoint run (ops : list Op) (s : Scheduler.t F) : list Step * Scheduler.t F :=
  match ops with
  | [] => ([], s)
  | op :: ops' =>
      let '(r, s1, cs) := step op s in
      let '(steps, s2) := run ops' s1 in
      ({| step_op := op; step_result := r; step_calls := cs |} :: steps, s2)
  end.

(** The refill test of [_get_next_request]. *)
Definition refills (s : Scheduler.t F) : bool :=
  negb (finished (frontier s)) &&
  bool_decide (__len__ s < total_concurrency (crawler s)).

End Engine.

(** The batches the frontier handed out in a list of calls, in order. *)
Definition pulled (calls : list Call) : list Request :=
  flat_map (λ c, match c with FrontierGetNextRequests batch => batch | _ => [] end) calls.

(** What a step put into the pending buffer: an accepted redirect
    continuation, or the batch of a refill. *)
Definition entered_redirect (st : Step) : list Request :=
  match step_op st, step_result st with
  | OpEnqueue request, Enqueued true =>
      if _request_is_redirected request then [request] else []
  | _, _ => []
  end.

Definition entered_refill (st : Step) : list Request :=
  match step_op st with
  | OpNext => pulled (step_calls st)
  | _ => []
  end.

Definition entered (st : Step) : list Request :=
  entered_redirect st ++ entered_refill st.

(** What a step handed to the engine for download. *)
Definition dispatched (st : Step) : list Request :=
  match step_result st with
  | Dispatched (Some request) => [request]
  | _ => []
  end.

(** What one step does to the scheduler: the result, the buffer and the
    calls, by cases on the operation. *)
Inductive step_spec {F : Type} `{FrontierManager F} (s : Scheduler.t F) : Op → Result → Scheduler.t F → list Call → Prop :=
| step_seed request cs :
    _request_is_redirected request = false →
    step_spec s (OpEnqueue request) (Enqueued true)
      (with_frontier (add_seeds [request] (frontier s)) s) cs
| step_redirect request cs :
    _request_is_redirected request = true →
    redirect_enabled s = true →
    step_spec s (OpEnqueue request) (Enqueued true)
      (with_pending (_pending_requests s ++ [request]) s) cs
| step_reject request :
    _request_is_redirected request = true →
    redirect_enabled s = false →
    step_spec s (OpEnqueue request) (Enqueued false) s []
| step_refill batch f cs :
    refills s = true →
    get_next_requests (frontier s) = (batch, f) →
    pulled cs = batch →
    step_spec s OpNext (Dispatched (head (_pending_requests s ++ batch)))
      (with_pending (tail (_pending_requests s ++ batch)) (with_frontier f s)) cs
| step_pop cs :
    refills s = false →
    pulled cs = [] →
    step_spec s OpNext (Dispatched (head (_pending_requests s)))
      (with_pending (tail (_pending_requests s)) s) cs
| step_output response result r f cs :
    step_spec s (OpSpiderOutput response result) (Yielded r) (with_frontier f s) cs
| step_error request exception f cs :
    step_spec s (OpException request exception) Reported (with_frontier f s) cs.

(** ** A queue-backed frontier *)

(** Modelled from the spec: the frontier manager
    ([crawlfrontier.contrib.scrapy.manager.ScrapyFrontierManager]) is not
    among the sources; the spec gives its contract only (section 6:
    [addSeeds], [getNextRequests] returning a batch whose size the frontier
    controls, [pageCrawled], [requestError], [start], [stop] and the
    readable [finished], [iterationCount], [autoStart]).  This instance is a
    first-in first-out frontier handing out at most [max_next_requests]
    requests per batch; it serves for concrete runs only. *)
Record QueueFrontier (max_next_requests : nat) : Type := {
  queue : list Request;
  queue_finished : bool;
  queue_iteration : Z;
  queue_auto_start : bool
}.
Arguments queue {max_next_requests} _.
Arguments queue_finished {max_next_requests} _.
Arguments queue_iteration {max_next_requests} _.
Arguments queue_auto_start {max_next_requests} _.

Definition queue_put {n : nat} (requests : list Request) (f : QueueFrontier n) : QueueFrontier n :=
  {| queue := queue f ++ requests; queue_finished := queue_finished f;
     queue_iteration := queue_iteration f; queue_auto_start := queue_auto_start f |}.

Definition queue_take {n : nat} (f : QueueFrontier n) : list Request * QueueFrontier n :=
  (take n (queue f),
   {| queue := drop n (queue f); queue_finished := queue_finished f;
      queue_iteration := queue_iteration f + 1; queue_auto_start := queue_auto_start f |}).

Definition queue_stop {n : nat} (f : QueueFrontier n) : QueueFrontier n :=
  {| queue := queue f; queue_finished := true;
     queue_iteration := queue_iteration f; queue_auto_start := queue_auto_start f |}.

#[export] Instance QueueFrontier_manager (n : nat) : FrontierManager (QueueFrontier n) := {|
  finished := queue_finished;
  iteration := queue_iteration;
  auto_start := queue_auto_start;
  add_seeds := queue_put;
  get_next_requests := queue_take;
  page_crawled := λ _ links, queue_put links;
  request_error := λ _ _ f, f;
  start := λ _ f, f;
  stop := λ _, queue_stop
|}.

(** ** Concrete requests and schedulers *)

Definition request_a : Request := {| url := "http://a"; meta := ∅ |}.
Definition request_b : Request := {| url := "http://b"; meta := ∅ |}.
Definition request_c : Request := {| url := "http://c"; meta := ∅ |}.

(** The first redirect hop of a page. *)
Definition request_r : Request :=
  {| url := "http://r"; meta := {[ "redirect_times" := 1 ]} |}.

Definition queue_frontier (n : nat) (requests : list Request) : QueueFrontier n :=
  {| queue := requests; queue_finished := false;
     queue_iteration := 0; queue_auto_start := false |}.

Definition crawler_of (redirect : bool) (concurrency : Z) : Crawler :=
  {| REDIRECT_ENABLED := redirect; total_concurrency := concurrency |}.

(** A scheduler right after construction, over a frontier that holds
    three requests and hands out up to [n] of them at a time. *)
Definition fresh_scheduler (n : nat) (redirect : bool) (concurrency : Z)
  : Scheduler.t (QueueFrontier n) :=
  __init__ (crawler_of redirect concurrency)
           (queue_frontier n [request_a; request_b; request_c]).

(** The same scheduler with one redirect continuation waiting. *)
Definition busy_scheduler (n : nat) (redirect : bool) (concurrency : Z)
  : Scheduler.t (QueueFrontier n) :=
  with_pending [request_r] (fresh_scheduler n redirect concurrency).

(** The frontier state left by the first batch of three. *)
Definition drained_frontier (n : nat) : QueueFrontier n :=
  {| queue := []; queue_finished := false;
     queue_iteration := 1; queue_auto_start := false |}.

(** Three redirect continuations arriving in a row. *)
Definition redirect_burst : list Op :=
  [OpEnqueue request_r; OpEnqueue request_r; OpEnqueue request_r].

(** A redirect continuation, a dispatch, a seed and another dispatch. *)
Definition mixed_run : list Op :=
  [OpEnqueue request_r; OpNext; OpEnqueue request_a; OpNext].

(** Number of [get_next_requests] calls in a list of calls. *)
Definition is_pull (c : Call) : bool :=
  match c with FrontierGetNextRequests _ => true | _ => false end.

Definition pulls (calls : list Call) : nat :=
  length (filter (λ c, is_pull c = true) calls).

(** ** The spider-output generator, step by step

    [process_spider_output] is a generator function: nothing runs when it
    is called, and each [next] on the generator runs its body up to the
    following [yield], or to the end of the body, where the two reports
    are made and [StopIteration] is raised. *)

Inductive Generator : Type :=
| Suspended (response : Response) (rest : list Element) (links : list Request)
| Exhausted.

Section GeneratorSteps.
Context {F : Type} `{FrontierManager F}.

(** The body of the generator from its current position: requests are
    appended to [links], the first other element is yielded ([Some]), and
    at the end of [result] the reports are made and the generator stops
    ([None]). *)
Fixpoint resume (response : Response) (rest : list Element) (links : list Request)
  : M F (option Element * Generator) :=
  match rest with
  | [] =>
      s ← get;
      frontier_page_crawled response links;;
      call (StatsManager.add_crawled_page (stats_manager s) (status response)
              (Z.of_nat (length links)));;
      mret (None, Exhausted)
  | ElementRequest request :: rest' => resume response rest' (links ++ [request])
  | element :: rest' => mret (Some element, Suspended response rest' links)
  end.

(** The generator object [process_spider_output(response, result, spider)]
    returns, and [next] on it.  A generator that has stopped stays
    stopped. *)
Definition spider_output_generator (response : Response) (result : list Element) : Generator :=
  Suspended response result [].

Definition generator_next (g : Generator) : M F (option Element * Generator) :=
  match g with
  | Suspended response rest links => resume response rest links
  | Exhausted => mret (None, Exhausted)
  end.

(** A consumer that calls [next] until [StopIteration], at most [fuel]
    times, and collects what was yielded. *)
Fixpoint drain (fuel : nat) (g : Generator) : M F (list Element) :=
  match fuel with
  | O => mret []
  | S fuel' =>
      x ← generator_next g;
      match x.1 with
      | Some element => l ← drain fuel' x.2; mret (element :: l)
      | None => mret []
      end
  end.

(** A whole crawl: [open], the engine's calls, [close].  The result is
    every call made on the collaborators, in order, and the scheduler
    left behind. *)
Definition session (spider reason : string) (ops : list Op) (s : Scheduler.t F)
  : list Call * Scheduler.t F :=
  let '(_, s1, c1) := open spider s in
  let '(steps, s2) := run ops s1 in
  let '(_, s3, c3) := close reason s2 in
  (c1 ++ flat_map step_calls steps ++ c3, s3).

End GeneratorSteps.

(** The requests and the other elements of a spider's output. *)
Definition links_of (result : list Element) : list Request :=
  omap (λ e, match e with ElementRequest r => Some r | _ => None end) result.

Definition is_request (e : Element) : bool :=
  match e with ElementRequest _ => true | ElementItem _ => false end.

(** The requests handed to the frontier by [add_seeds] calls, and the links
    reported by [page_crawled] calls, in a list of calls. *)
Definition seeded (calls : list Call) : list Request :=
  flat_map (λ c, match c with FrontierAddSeeds requests => requests | _ => [] end) calls.

Definition reported_links (calls : list Call) : list Request :=
  flat_map (λ c, match c with FrontierPageCrawled _ links => links | _ => [] end) calls.

(** The fresh requests among the engine's [enqueue_request] calls, the
    number of failures it reported and the number of pages it passed to
    [process_spider_output]. *)
Definition seeds_of (ops : list Op) : list Request :=
  flat_map (λ op, match op with
                  | OpEnqueue request =>
                      if _request_is_redirected request then [] else [request]
                  | _ => []
                  end) ops.

Definition failures_of (ops : list Op) : list PyException :=
  flat_map (λ op, match op with OpException _ exception => [exception] | _ => [] end) ops.

Definition pages_of (ops : list Op) : list (list Element) :=
  flat_map (λ op, match op with OpSpiderOutput _ result => [result] | _ => [] end) ops.

(** The calls that start or stop the frontier. *)
Definition is_lifecycle (c : Call) : bool :=
  match c with FrontierStart _ | FrontierStop _ => true | _ => false end.

Definition lifecycle (calls : list Call) : list Call :=
  filter (λ c, is_lifecycle c = true) calls.

(** The value a collector shows for a counter: 0 until it is first
    touched. *)
Definition counter (stats : gmap string Z) (key : string) : Z :=
  default 0 (stats !! key).

(** A page with two links and two items, and the generator over it. *)
Definition page_result : list Element :=
  [ElementRequest request_a; ElementItem "title"; ElementRequest request_b;
   ElementItem "price"].

Definition page_response : Response := {| status := 200 |}.

(** ** Method-level facts *)

Ltac run_method :=
  cbv beta iota zeta delta
    [enqueue_request next_request process_exception process_spider_output
     close open _get_next_request _get_pending_request _add_pending_request
     frontier_add_seeds frontier_get_next_requests frontier_page_crawled
     frontier_request_error frontier_start frontier_stop
     set_pending set_frontier get call mbind M_bind mret M_ret
     StatsManager.add_seeds StatsManager.add_redirected_requests
     StatsManager.add_returned_requests StatsManager.add_request_error
     StatsManager.add_crawled_page
     StatsManager.set_iterations StatsManager.set_pending_requests
     StatsManager._inc_value StatsManager._set_value].

Section MethodFacts.
Context {F : Type} `{FrontierManager F}.
Implicit Types (s : Scheduler.t F) (request : Request).

Lemma with_frontier_same s : with_frontier (frontier s) s = s.
Proof. by destruct s. Qed.

Lemma with_pending_same s : with_pending (_pending_requests s) s = s.
Proof. by destruct s. Qed.

Lemma with_pending_twice q q' s : with_pending q (with_pending q' s) = with_pending q s.
Proof. done. Qed.

(** The refill loop appends the batch to the buffer, in the batch's order. *)
Lemma for_each_add_pending (batch : list Request) s :
  for_each batch _add_pending_request s =
    (tt, with_pending (_pending_requests s ++ batch) s, []).
Proof.
  revert s. induction batch as [|r batch IH]; intros s.
  - simpl. unfold mret, M_ret. by rewrite app_nil_r, with_pending_same.
  - simpl. run_method. rewrite IH. simpl.
    by rewrite with_pending_twice, <- app_assoc.
Qed.

(** [_get_next_request] in closed form. *)
Lemma _get_next_request_eq s :
  _get_next_request s =
    let '(batch, f) :=
      if refills s then get_next_requests (frontier s) else ([], frontier s) in
    let q := _pending_requests s ++ batch in
    (head q, with_pending (tail q) (with_frontier f s),
     if refills s then [FrontierGetNextRequests batch] else []).
Proof.
  unfold refills. run_method.
  destruct (negb (finished (frontier s)) && _) eqn:Hrefill.
  - destruct (get_next_requests (frontier s)) as [batch f] eqn:Hbatch.
    run_method. rewrite for_each_add_pending. simpl.
    destruct (_pending_requests s ++ batch) as [|r q] eqn:Hq; simpl; done.
  - simpl. rewrite app_nil_r, with_frontier_same.
    destruct (_pending_requests s) as [|r q] eqn:Hq; simpl; [|done].
    by rewrite <- Hq, with_pending_same.
Qed.

Lemma next_request_eq s :
  next_request s =
    let '(batch, f) :=
      if refills s then get_next_requests (frontier s) else ([], frontier s) in
    let q := _pending_requests s ++ batch in
    (head q, with_pending (tail q) (with_frontier f s),
     (if refills s then [FrontierGetNextRequests batch] else []) ++
     match head q with
     | Some _ => [StatsIncValue
                    (StatsManager._get_stats_name (stats_manager s) "returned_requests_count") 1]
     | None => []
     end).
Proof.
  unfold next_request. cbv beta iota zeta delta [mbind M_bind get].
  rewrite _get_next_request_eq.
  destruct (if refills s then _ else _) as [batch f].
  cbv zeta. destruct (head (_pending_requests s ++ batch)); run_method; simpl;
    by rewrite ?app_nil_r.
Qed.

End MethodFacts.

(** ** Admission *)

Section Admission.
Context {F : Type} `{FrontierManager F}.
Implicit Types (s : Scheduler.t F) (request : Request).

Lemma enqueue_request_seed s request :
  _request_is_redirected request = false →
  enqueue_request request s =
    (true, with_frontier (add_seeds [request] (frontier s)) s,
     [FrontierAddSeeds [request];
      StatsIncValue (StatsManager._get_stats_name (stats_manager s) "seeds_count") 1]).
Proof. intros Hr. run_method. by rewrite Hr. Qed.

Lemma enqueue_request_redirect s request :
  _request_is_redirected request = true →
  redirect_enabled s = true →
  enqueue_request request s =
    (true, with_pending (_pending_requests s ++ [request]) s,
     [StatsIncValue
        (StatsManager._get_stats_name (stats_manager s) "redirected_requests_count") 1]).
Proof. intros Hr He. run_method. by rewrite Hr, He. Qed.

Lemma enqueue_request_reject s request :
  _request_is_redirected request = true →
  redirect_enabled s = false →
  enqueue_request request s = (false, s, []).
Proof. intros Hr He. run_method. by rewrite Hr, He. Qed.

Lemma redirected_iff request :
  _request_is_redirected request = true ↔ redirect_times request > 0.
Proof. unfold _request_is_redirected. by rewrite bool_decide_eq_true. Qed.

Lemma not_redirected_iff request :
  _request_is_redirected request = false ↔ redirect_times request ≤ 0.
Proof. unfold _request_is_redirected. rewrite bool_decide_eq_false. lia. Qed.

(** One [inc_value key 1] raises the collected value of [key] by one and
    leaves every other key alone. *)
Lemma collected_inc key (stats : gmap string Z) :
  collected [StatsIncValue key 1] stats = <[key := default 0 (stats !! key) + 1]> stats.
Proof. done. Qed.

(** C4: a redirect continuation (redirect depth above 0) offered while
    redirects are disabled is refused: [enqueue_request] returns [False],
    the scheduler (buffer, frontier state and all) is exactly what it was,
    and no call reaches the frontier or the stats collector. *)
Theorem enqueue_request_redirect_disabled s request :
  redirect_times request > 0 →
  redirect_enabled s = false →
  enqueue_request request s = (false, s, []).
Proof.
  intros Hdepth Hoff. apply enqueue_request_reject; [|done].
  by apply redirected_iff.
Qed.

(** C5: a request of redirect depth 0 is accepted as a seed:
    [enqueue_request] returns [True], the frontier gets exactly one
    [add_seeds] call holding that single request, the seed counter gets
    exactly one increment of 1, and the pending buffer is untouched. *)
Theorem enqueue_request_depth_zero s request :
  redirect_times request = 0 →
  let key := StatsManager._get_stats_name (stats_manager s) "seeds_count" in
  let '(accepted, s', calls) := enqueue_request request s in
  accepted = true ∧
  calls = [FrontierAddSeeds [request]; StatsIncValue key 1] ∧
  frontier s' = add_seeds [request] (frontier s) ∧
  _pending_requests s' = _pending_requests s ∧
  ∀ stats : gmap string Z,
    collected calls stats = <[key := default 0 (stats !! key) + 1]> stats.
Proof.
  intros Hdepth key. rewrite enqueue_request_seed.
  - by repeat split.
  - apply not_redirected_iff. lia.
Qed.

(** C6: a redirect continuation offered while redirects are enabled is
    accepted straight into the buffer: [enqueue_request] returns [True],
    the request becomes the last element of the pending buffer (whose
    length grows by exactly one), the redirected counter gets exactly one
    increment of 1, and the frontier is neither called nor changed. *)
Theorem enqueue_request_redirect_enabled s request :
  redirect_times request > 0 →
  redirect_enabled s = true →
  let key := StatsManager._get_stats_name (stats_manager s) "redirected_requests_count" in
  let '(accepted, s', calls) := enqueue_request request s in
  accepted = true ∧
  _pending_requests s' = _pending_requests s ++ [request] ∧
  __len__ s' = __len__ s + 1 ∧
  calls = [StatsIncValue key 1] ∧
  frontier s' = frontier s ∧
  ∀ stats : gmap string Z,
    collected calls stats = <[key := default 0 (stats !! key) + 1]> stats.
Proof.
  intros Hdepth Hon key. rewrite enqueue_request_redirect; [|by apply redirected_iff|done].
  repeat split. unfold __len__. simpl. rewrite length_app. simpl. lia.
Qed.

(** C10: a request whose [meta] has no ["redirect_times"] entry is read as
    depth 0 and accepted as a seed whatever [redirect_enabled] is:
    [enqueue_request] returns [True], calls [add_seeds] once with that
    request, and leaves the pending buffer as it was. *)
Theorem enqueue_request_no_redirect_entry s request :
  meta request !! "redirect_times" = None →
  redirect_times request = 0 ∧
  _request_is_redirected request = false ∧
  let '(accepted, s', calls) := enqueue_request request s in
  accepted = true ∧
  calls = [FrontierAddSeeds [request];
           StatsIncValue (StatsManager._get_stats_name (stats_manager s) "seeds_count") 1] ∧
  frontier s' = add_seeds [request] (frontier s) ∧
  _pending_requests s' = _pending_requests s.
Proof.
  intros Hmeta.
  assert (Hdepth : redirect_times request = 0) by (unfold redirect_times; by rewrite Hmeta).
  assert (Hseed : _request_is_redirected request = false)
    by (apply not_redirected_iff; lia).
  split; [done|]. split; [done|].
  rewrite enqueue_request_seed by done. by repeat split.
Qed.

End Admission.

(** ** Dispatch, failure reports and shutdown *)

Section Dispatch.
Context {F : Type} `{FrontierManager F}.
Implicit Types (s : Scheduler.t F) (request : Request).

Lemma next_request_pulls s :
  pulls (calls_of (next_request s)) = if refills s then 1%nat else 0%nat.
Proof.
  rewrite next_request_eq. destruct (refills s).
  - destruct (get_next_requests (frontier s)) as [batch f].
    cbv zeta. by destruct (head (_pending_requests s ++ batch)).
  - cbv zeta. by destruct (head (_pending_requests s ++ [])).
Qed.

Lemma refills_true s :
  refills s = true ↔
  finished (frontier s) = false ∧ __len__ s < total_concurrency (crawler s).
Proof.
  unfold refills. rewrite andb_true_iff, negb_true_iff, bool_decide_eq_true. done.
Qed.

(** C2: whenever [next_request] calls the frontier's [get_next_requests],
    the frontier was not finished and the buffer held strictly fewer
    requests than the downloader's [total_concurrency]; so there is no pull
    once the frontier is finished, and none while the buffer is at or above
    capacity. *)
Theorem next_request_pulls_only_below_capacity s :
  pulls (calls_of (next_request s)) ≠ 0%nat →
  finished (frontier s) = false ∧ __len__ s < total_concurrency (crawler s).
Proof.
  rewrite next_request_pulls. intros Hpull. apply refills_true.
  by destruct (refills s).
Qed.

(** C9: with [total_concurrency] 2, an empty buffer and a frontier that is
    not finished and answers [get_next_requests] with the batch
    [a; b; c], one [next_request] buffers the whole batch, returns [a],
    leaves [b; c] in the buffer in that order, and sends the one
    increment that takes the returned counter from nothing to 1. *)
Theorem next_request_refill_past_capacity s (a b c : Request) (f' : F) :
  total_concurrency (crawler s) = 2 →
  _pending_requests s = [] →
  finished (frontier s) = false →
  get_next_requests (frontier s) = ([a; b; c], f') →
  let key := StatsManager._get_stats_name (stats_manager s) "returned_requests_count" in
  let '(request, s', calls) := next_request s in
  request = Some a ∧
  _pending_requests s' = [b; c] ∧
  calls = [FrontierGetNextRequests [a; b; c]; StatsIncValue key 1] ∧
  collected calls ∅ !! key = Some 1.
Proof.
  intros Hcap Hempty Hfin Hbatch key.
  assert (Hrefill : refills s = true).
  { apply refills_true. split; [done|]. unfold __len__. rewrite Hempty, Hcap. done. }
  rewrite next_request_eq, Hrefill, Hbatch, Hempty. simpl.
  repeat split. unfold collected. simpl. by rewrite lookup_insert_eq.
Qed.

(** C7: failure classification is total.  When the failure's class name
    can be read, [process_exception] forwards that name; when reading it
    raises, it forwards ["?"].  Either way the frontier gets exactly one
    [request_error] call carrying the request and the label, and the
    collector gets one increment of the error total and one of the
    per-label total. *)
Theorem process_exception_total s request :
  (∀ name : string,
     _get_exception_code {| class_name := Returns name |} = name ∧
     process_exception request {| class_name := Returns name |} s =
       (tt, with_frontier (request_error request name (frontier s)) s,
        [FrontierRequestError request name;
         StatsIncValue
           (StatsManager._get_stats_name (stats_manager s) "request_errors_count") 1;
         StatsIncValue
           (StatsManager._get_stats_name (stats_manager s)
              ("request_errors_count/" +:+ name)) 1])) ∧
  _get_exception_code {| class_name := Raises |} = "?" ∧
  process_exception request {| class_name := Raises |} s =
    (tt, with_frontier (request_error request "?" (frontier s)) s,
     [FrontierRequestError request "?";
      StatsIncValue
        (StatsManager._get_stats_name (stats_manager s) "request_errors_count") 1;
      StatsIncValue
        (StatsManager._get_stats_name (stats_manager s) "request_errors_count/?") 1]).
Proof. by repeat split. Qed.

(** C1, as the code has it: [close] leaves the pending buffer alone.
    After [close reason] the buffer, and so [__len__], is what it was
    before; that length is what the collector receives as the pending
    count; and the only call on the frontier is [stop reason], so nothing
    buffered goes back to the frontier. *)
Theorem close_keeps_pending_requests s (reason : string) :
  let '(_, s', calls) := close reason s in
  _pending_requests s' = _pending_requests s ∧
  __len__ s' = __len__ s ∧
  frontier s' = stop reason (frontier s) ∧
  calls =
    [LogMsg ("Finishing frontier (" +:+ reason +:+ ")") INFO;
     FrontierStop reason;
     StatsSetValue (StatsManager._get_stats_name (stats_manager s) "iterations")
       (iteration (stop reason (frontier s)));
     StatsSetValue (StatsManager._get_stats_name (stats_manager s) "pending_requests_count")
       (__len__ s)].
Proof. by repeat split. Qed.

End Dispatch.

(** ** Runs of the engine *)

Section Runs.
Context {F : Type} `{FrontierManager F}.
Implicit Types (s : Scheduler.t F) (request : Request) (ops : list Op).

Lemma step_sound op s :
  step_spec s op (result_of (step op s)) (state_of (step op s)) (calls_of (step op s)).
Proof.
  destruct op as [request| |response result|request exception];
    unfold step; cbv beta iota zeta delta [mbind M_bind mret M_ret].
  - destruct (_request_is_redirected request) eqn:Hr.
    + destruct (redirect_enabled s) eqn:He.
      * rewrite enqueue_request_redirect by done. by apply step_redirect.
      * rewrite enqueue_request_reject by done. by apply step_reject.
    + rewrite enqueue_request_seed by done. by apply step_seed.
  - rewrite next_request_eq. destruct (refills s) eqn:Hrefill.
    + destruct (get_next_requests (frontier s)) as [batch f] eqn:Hbatch.
      cbv zeta. apply step_refill; [done..|].
      unfold calls_of, pulled. simpl.
      destruct (head (_pending_requests s ++ batch)); simpl; by rewrite app_nil_r.
    + cbv zeta. rewrite app_nil_r, with_frontier_same. apply step_pop; [done|].
      by destruct (head (_pending_requests s)).
  - apply step_output.
  - apply step_error.
Qed.

Lemma run_cons op ops s :
  run (op :: ops) s =
    ({| step_op := op; step_result := result_of (step op s);
        step_calls := calls_of (step op s) |} :: (run ops (state_of (step op s))).1,
     (run ops (state_of (step op s))).2).
Proof.
  unfold result_of, state_of, calls_of. cbn [run].
  destruct (step op s) as [[r s1] cs]. cbn [fst snd].
  by destruct (run ops s1).
Qed.

Lemma head_tail {A : Type} (l : list A) :
  l = match head l with Some x => [x] | None => [] end ++ tail l.
Proof. by destruct l. Qed.

Lemma length_tail_le {A : Type} (l : list A) : (length (tail l) ≤ length l)%nat.
Proof. destruct l; simpl; lia. Qed.

(** One step keeps the first-in first-out balance: what was buffered plus
    what the step buffered is what the step dispatched plus what is still
    buffered. *)
Lemma step_fifo op s r s' cs :
  step_spec s op r s' cs →
  _pending_requests s ++ entered {| step_op := op; step_result := r; step_calls := cs |} =
  dispatched {| step_op := op; step_result := r; step_calls := cs |} ++ _pending_requests s'.
Proof.
  intros Hstep.
  destruct Hstep as [request cs Hr|request cs Hr He|request Hr He
                    |batch f cs Hrefill Hbatch Hpulled|cs Hrefill Hpulled
                    |response result r f cs|request exception f cs];
    unfold entered, entered_redirect, entered_refill, dispatched;
    cbn [step_op step_result step_calls _pending_requests with_pending with_frontier].
  - by rewrite Hr, !app_nil_r.
  - by rewrite Hr, !app_nil_r.
  - by rewrite !app_nil_r.
  - rewrite Hpulled. apply head_tail.
  - rewrite Hpulled, app_nil_r. apply head_tail.
  - by rewrite !app_nil_r.
  - by rewrite !app_nil_r.
Qed.

(** C3: first-in first-out dispatch.  Over any run of the engine, the
    requests already buffered followed by everything the run put into the
    buffer (each accepted redirect continuation, and each refill batch in
    the order the frontier returned it, all in the order of the calls) is
    the sequence of requests [next_request] returned, in order, followed by
    what is left in the buffer.  So requests leave in exactly the order
    they entered, and a redirect continuation accepted before a refill
    leaves before the requests of that refill. *)
Theorem next_request_fifo ops s :
  _pending_requests s ++ flat_map entered (run ops s).1 =
  flat_map dispatched (run ops s).1 ++ _pending_requests (run ops s).2.
Proof.
  revert s. induction ops as [|op ops IH]; intros s.
  - simpl. by rewrite app_nil_r.
  - rewrite run_cons. cbn [fst snd flat_map].
    rewrite app_assoc, (step_fifo _ _ _ _ _ (step_sound op s)).
    rewrite <- !app_assoc. f_equal. apply IH.
Qed.

(** A step changes neither the crawler nor the redirect switch. *)
Lemma step_frame op s r s' cs :
  step_spec s op r s' cs →
  crawler s' = crawler s ∧ redirect_enabled s' = redirect_enabled s.
Proof. by destruct 1. Qed.

(** One step against the soft bound: a refill happens only below capacity
    and adds at most one batch, and only an accepted redirect
    continuation can push the length further. *)
Lemma step_bound (B : nat) (k : Z) op s r s' cs :
  (∀ f : F, (length (get_next_requests f).1 ≤ B)%nat) →
  step_spec s op r s' cs →
  0 ≤ k →
  __len__ s ≤ total_concurrency (crawler s) + Z.of_nat B + k →
  __len__ s' ≤ total_concurrency (crawler s) + Z.of_nat B + k +
    Z.of_nat (length (entered_redirect {| step_op := op; step_result := r; step_calls := cs |})).
Proof.
  intros Hbatch Hstep Hk. unfold __len__.
  destruct Hstep as [request cs Hr|request cs Hr He|request Hr He
                    |batch f cs Hrefill Hbatch' Hpulled|cs Hrefill Hpulled
                    |response result r f cs|request exception f cs];
    unfold entered_redirect;
    cbn [step_op step_result step_calls _pending_requests with_pending with_frontier
         crawler].
  - rewrite Hr. simpl. lia.
  - rewrite Hr, length_app. simpl. lia.
  - simpl. lia.
  - intros _. apply refills_true in Hrefill as [_ Hroom]. unfold __len__ in Hroom.
    specialize (Hbatch (frontier s)). rewrite Hbatch' in Hbatch. simpl in Hbatch.
    pose proof (length_tail_le (_pending_requests s ++ batch)) as Htail.
    rewrite length_app in Htail. lia.
  - pose proof (length_tail_le (_pending_requests s)). lia.
  - simpl. lia.
  - simpl. lia.
Qed.

Lemma run_bound (B : nat) ops : ∀ s (k : Z),
  (∀ f : F, (length (get_next_requests f).1 ≤ B)%nat) →
  0 ≤ k →
  __len__ s ≤ total_concurrency (crawler s) + Z.of_nat B + k →
  __len__ (run ops s).2 ≤
    total_concurrency (crawler s) + Z.of_nat B + k +
    Z.of_nat (length (flat_map entered_redirect (run ops s).1)).
Proof.
  induction ops as [|op ops IH]; intros s k Hbatch Hk Hlen.
  - simpl. lia.
  - rewrite run_cons. cbn [fst snd flat_map]. rewrite length_app.
    pose proof (step_sound op s) as Hstep.
    pose proof (step_frame _ _ _ _ _ Hstep) as [Hcrawler _].
    pose proof (step_bound B k _ _ _ _ _ Hbatch Hstep Hk Hlen) as Hlen'.
    rewrite <- Hcrawler in Hlen'.
    set (n := length (entered_redirect _)) in *.
    assert (Hk' : 0 ≤ k + Z.of_nat n) by lia.
    rewrite <- Z.add_assoc in Hlen'.
    specialize (IH _ _ Hbatch Hk' Hlen'). rewrite Hcrawler in IH. lia.
Qed.

Lemma run_no_redirect ops : ∀ s,
  redirect_enabled s = false →
  flat_map entered_redirect (run ops s).1 = [].
Proof.
  induction ops as [|op ops IH]; intros s Hoff; [done|].
  rewrite run_cons. cbn [fst flat_map].
  pose proof (step_sound op s) as Hstep.
  pose proof (step_frame _ _ _ _ _ Hstep) as [_ Henabled].
  rewrite IH by congruence. rewrite app_nil_r.
  destruct Hstep as [request cs Hr|request cs Hr He|request Hr He
                    |batch f cs Hrefill Hbatch Hpulled|cs Hrefill Hpulled
                    |response result r f cs|request exception f cs];
    unfold entered_redirect; cbn [step_op step_result]; try done.
  - by rewrite Hr.
  - congruence.
Qed.

(** C8, as the code has it: the soft bound holds up to the redirect
    continuations accepted.  From a newly built scheduler with a
    non-negative [total_concurrency], over a frontier whose batches hold at
    most [B] requests, after any run the buffer length is at most the
    capacity plus [B] plus the number of redirect continuations the run
    accepted into the buffer; with redirects disabled nothing is added and
    the length is at most the capacity plus one batch. *)
Theorem pending_requests_soft_bound (B : nat) (crawler : Crawler) (f : F) ops :
  0 ≤ total_concurrency crawler →
  (∀ f' : F, (length (get_next_requests f').1 ≤ B)%nat) →
  let '(steps, s') := run ops (__init__ crawler f) in
  __len__ s' ≤
    total_concurrency crawler + Z.of_nat B +
    (if REDIRECT_ENABLED crawler
     then Z.of_nat (length (flat_map entered_redirect steps))
     else 0).
Proof.
  intros Hcap Hbatch.
  pose proof (run_bound B ops (__init__ crawler f) 0 Hbatch ltac:(done)) as Hrun.
  pose proof (run_no_redirect ops (__init__ crawler f)) as Hoff.
  destruct (run ops (__init__ crawler f)) as [steps s']. simpl in *.
  assert (Hlen : __len__ s' ≤
            total_concurrency crawler + Z.of_nat B +
            Z.of_nat (length (flat_map entered_redirect steps))).
  { unfold __len__ in *. simpl in Hrun. lia. }
  destruct (REDIRECT_ENABLED crawler); [done|].
  rewrite Hoff in Hlen by done. simpl in Hlen. lia.
Qed.

End Runs.

(** ** Concrete runs *)

Lemma queue_take_bound (n : nat) (f : QueueFrontier n) :
  (length (get_next_requests f).1 ≤ n)%nat.
Proof. simpl. rewrite length_take. lia. Qed.

Lemma enqueue_request_redirect_disabled_witness :
  redirect_times request_r > 0 ∧
  redirect_enabled (busy_scheduler 2 false 2) = false ∧
  enqueue_request request_r (busy_scheduler 2 false 2) =
    (false, busy_scheduler 2 false 2, []).
Proof.
  split; [by vm_compute|]. split; [reflexivity|].
  apply enqueue_request_redirect_disabled; [by vm_compute|reflexivity].
Defined.

Lemma enqueue_request_depth_zero_witness :
  redirect_times request_a = 0 ∧
  let key := StatsManager._get_stats_name
               (stats_manager (busy_scheduler 2 true 2)) "seeds_count" in
  let '(accepted, s', calls) := enqueue_request request_a (busy_scheduler 2 true 2) in
  accepted = true ∧
  calls = [FrontierAddSeeds [request_a]; StatsIncValue key 1] ∧
  frontier s' = add_seeds [request_a] (frontier (busy_scheduler 2 true 2)) ∧
  _pending_requests s' = _pending_requests (busy_scheduler 2 true 2) ∧
  ∀ stats : gmap string Z,
    collected calls stats = <[key := default 0 (stats !! key) + 1]> stats.
Proof.
  split; [by vm_compute|].
  apply (enqueue_request_depth_zero (busy_scheduler 2 true 2) request_a).
  by vm_compute.
Defined.

Lemma enqueue_request_redirect_enabled_witness :
  redirect_times request_r > 0 ∧
  redirect_enabled (busy_scheduler 2 true 2) = true ∧
  let key := StatsManager._get_stats_name
               (stats_manager (busy_scheduler 2 true 2)) "redirected_requests_count" in
  let '(accepted, s', calls) := enqueue_request request_r (busy_scheduler 2 true 2) in
  accepted = true ∧
  _pending_requests s' = _pending_requests (busy_scheduler 2 true 2) ++ [request_r] ∧
  __len__ s' = __len__ (busy_scheduler 2 true 2) + 1 ∧
  calls = [StatsIncValue key 1] ∧
  frontier s' = frontier (busy_scheduler 2 true 2) ∧
  ∀ stats : gmap string Z,
    collected calls stats = <[key := default 0 (stats !! key) + 1]> stats.
Proof.
  split; [by vm_compute|]. split; [reflexivity|].
  apply (enqueue_request_redirect_enabled (busy_scheduler 2 true 2) request_r);
    [by vm_compute|reflexivity].
Defined.

Lemma enqueue_request_no_redirect_entry_witness :
  meta request_b !! "redirect_times" = None ∧
  redirect_times request_b = 0 ∧
  _request_is_redirected request_b = false ∧
  let '(accepted, s', calls) := enqueue_request request_b (busy_scheduler 2 false 2) in
  accepted = true ∧
  calls = [FrontierAddSeeds [request_b];
           StatsIncValue
             (StatsManager._get_stats_name
                (stats_manager (busy_scheduler 2 false 2)) "seeds_count") 1] ∧
  frontier s' = add_seeds [request_b] (frontier (busy_scheduler 2 false 2)) ∧
  _pending_requests s' = _pending_requests (busy_scheduler 2 false 2).
Proof.
  split; [by vm_compute|].
  apply (enqueue_request_no_redirect_entry (busy_scheduler 2 false 2) request_b).
  by vm_compute.
Defined.

Lemma next_request_pulls_only_below_capacity_witness :
  pulls (calls_of (next_request (busy_scheduler 3 true 2))) ≠ 0%nat ∧
  finished (frontier (busy_scheduler 3 true 2)) = false ∧
  __len__ (busy_scheduler 3 true 2) < total_concurrency (crawler (busy_scheduler 3 true 2)).
Proof.
  assert (Hpull : pulls (calls_of (next_request (busy_scheduler 3 true 2))) ≠ 0%nat)
    by (by vm_compute).
  split; [exact Hpull|].
  exact (next_request_pulls_only_below_capacity (busy_scheduler 3 true 2) Hpull).
Defined.

Lemma next_request_refill_past_capacity_witness :
  total_concurrency (crawler (fresh_scheduler 3 false 2)) = 2 ∧
  _pending_requests (fresh_scheduler 3 false 2) = [] ∧
  finished (frontier (fresh_scheduler 3 false 2)) = false ∧
  get_next_requests (frontier (fresh_scheduler 3 false 2)) =
    ([request_a; request_b; request_c], drained_frontier 3) ∧
  let key := StatsManager._get_stats_name
               (stats_manager (fresh_scheduler 3 false 2)) "returned_requests_count" in
  let '(request, s', calls) := next_request (fresh_scheduler 3 false 2) in
  request = Some request_a ∧
  _pending_requests s' = [request_b; request_c] ∧
  calls = [FrontierGetNextRequests [request_a; request_b; request_c];
           StatsIncValue key 1] ∧
  collected calls ∅ !! key = Some 1.
Proof.
  do 4 (split; [reflexivity|]).
  apply (next_request_refill_past_capacity (fresh_scheduler 3 false 2)
           request_a request_b request_c (drained_frontier 3)); reflexivity.
Defined.

Lemma pending_requests_soft_bound_witness :
  0 ≤ total_concurrency (crawler_of true 1) ∧
  (∀ f' : QueueFrontier 2, (length (get_next_requests f').1 ≤ 2)%nat) ∧
  let '(steps, s') :=
    run mixed_run
      (__init__ (crawler_of true 1) (queue_frontier 2 [request_a; request_b; request_c])) in
  __len__ s' ≤
    total_concurrency (crawler_of true 1) + Z.of_nat 2 +
    (if REDIRECT_ENABLED (crawler_of true 1)
     then Z.of_nat (length (flat_map entered_redirect steps))
     else 0).
Proof.
  split; [by vm_compute|]. split; [apply queue_take_bound|].
  apply (pending_requests_soft_bound 2 (crawler_of true 1)
           (queue_frontier 2 [request_a; request_b; request_c]) mixed_run);
    [by vm_compute|apply queue_take_bound].
Defined.

(** A redirect continuation accepted before the first refill is dispatched
    ahead of the batch that refill brings in. *)
Example redirect_dispatched_before_refill :
  flat_map dispatched
    (run [OpEnqueue request_r; OpNext; OpNext; OpNext; OpNext; OpNext]
         (fresh_scheduler 3 true 2)).1 =
  [request_r; request_a; request_b; request_c].
Proof. reflexivity. Qed.

(** With the scheduler full of redirect continuations, the frontier is not
    asked for more. *)
Example no_pull_at_capacity :
  calls_of (next_request (busy_scheduler 3 true 1)) =
  [StatsIncValue "crawlfrontier/returned_requests_count" 1].
Proof. reflexivity. Qed.

(** C1, as the spec states it, fails: closing a scheduler that holds one
    buffered request leaves [__len__] at 1, not 0. *)
Lemma close_leaves_buffer_counterexample :
  __len__ (state_of (close "finished" (busy_scheduler 2 true 2))) = 1 ∧
  ¬ (__len__ (state_of (close "finished" (busy_scheduler 2 true 2))) = 0).
Proof. split; [reflexivity|]. by vm_compute. Qed.

(** C8, as the spec states it, fails: with capacity 1 and batches of at
    most one request, three accepted redirect continuations make the
    buffer three long, above capacity plus one batch. *)
Lemma soft_bound_counterexample :
  (∀ f : QueueFrontier 1, (length (get_next_requests f).1 ≤ 1)%nat) ∧
  __len__ (run redirect_burst (__init__ (crawler_of true 1) (queue_frontier 1 []))).2 = 3 ∧
  ¬ (__len__ (run redirect_burst (__init__ (crawler_of true 1) (queue_frontier 1 []))).2
     ≤ total_concurrency (crawler_of true 1) + 1).
Proof.
  split; [apply queue_take_bound|]. split; [reflexivity|]. by vm_compute.
Qed.

(** ** Counter names and what the collector shows *)

Section StatsNames.
Implicit Types (sm : StatsManager.t) (stats : gmap string Z).

Lemma _get_stats_name_inj sm (v1 v2 : string) :
  StatsManager._get_stats_name sm v1 = StatsManager._get_stats_name sm v2 → v1 = v2.
Proof.
  unfold StatsManager._get_stats_name. intros Heq.
  apply (inj (String.app (StatsManager.prefix sm))) in Heq.
  by apply (inj (String.app "/")) in Heq.
Qed.

Lemma collected_app (c1 c2 : list Call) stats :
  collected (c1 ++ c2) stats = collected c2 (collected c1 stats).
Proof. apply foldl_app. Qed.

Lemma counter_inc_eq key n stats :
  counter (collected [StatsIncValue key n] stats) key = counter stats key + n.
Proof. unfold counter, collected. simpl. by rewrite lookup_insert_eq. Qed.

Lemma counter_inc_ne key key' n stats :
  key ≠ key' →
  counter (collected [StatsIncValue key n] stats) key' = counter stats key'.
Proof. intros Hne. unfold counter, collected. simpl. by rewrite lookup_insert_ne. Qed.

Lemma counter_cons_inc key key' n (calls : list Call) stats :
  counter (collected (StatsIncValue key n :: calls) stats) key' =
  counter (collected calls (<[key := counter stats key + n]> stats)) key'.
Proof. done. Qed.

End StatsNames.

(** Proves that two counter names built by the same [StatsManager] from
    different variables differ. *)
Ltac stat_neq :=
  let Heq := fresh "Heq" in
  intros Heq; apply _get_stats_name_inj in Heq;
  cbv beta iota delta [String.append] in Heq; congruence.

(** Reads a counter off a collector after a short list of calls. *)
Ltac read_counter :=
  unfold counter, collected; cbn [foldl collect];
  repeat first
    [ rewrite lookup_insert_eq
    | rewrite lookup_insert_ne by stat_neq ];
  cbn [from_option id]; try lia.

Section StatsManagerFacts.
Implicit Types (sm : StatsManager.t) (stats : gmap string Z).

(** X1: [add_crawled_page] raises three different counters: the page
    total by 1, the total of the page's status code by 1 and the link
    total by the number of links. *)
Theorem add_crawled_page_counts sm (status_code n_links : Z) stats :
  let stats' := collected (StatsManager.add_crawled_page sm status_code n_links) stats in
  let total := StatsManager._get_stats_name sm "crawled_pages_count" in
  let by_status :=
    StatsManager._get_stats_name sm ("crawled_pages_count/" +:+ pretty status_code) in
  let links := StatsManager._get_stats_name sm "links_extracted_count" in
  counter stats' total = counter stats total + 1 ∧
  counter stats' by_status = counter stats by_status + 1 ∧
  counter stats' links = counter stats links + n_links.
Proof.
  intros stats' total by_status links. subst stats' total by_status links.
  unfold StatsManager.add_crawled_page, StatsManager._inc_value. cbn [app].
  repeat split; read_counter.
Qed.

(** X2: pages with different status codes are counted apart: a page of
    status [code] leaves the counter of every other status alone. *)
Theorem add_crawled_page_other_status sm (code other n_links : Z) stats :
  code ≠ other →
  let by_other :=
    StatsManager._get_stats_name sm ("crawled_pages_count/" +:+ pretty other) in
  counter (collected (StatsManager.add_crawled_page sm code n_links) stats) by_other =
  counter stats by_other.
Proof.
  intros Hne by_other. subst by_other.
  unfold StatsManager.add_crawled_page, StatsManager._inc_value. cbn [app].
  assert (Hkey : StatsManager._get_stats_name sm ("crawled_pages_count/" +:+ pretty code) ≠
                 StatsManager._get_stats_name sm ("crawled_pages_count/" +:+ pretty other)).
  { intros Heq. apply _get_stats_name_inj in Heq.
    apply (inj (String.app "crawled_pages_count/")) in Heq.
    by apply (inj pretty) in Heq. }
  unfold counter, collected. cbn [foldl collect].
  rewrite lookup_insert_ne by stat_neq.
  rewrite lookup_insert_ne by done.
  by rewrite lookup_insert_ne by stat_neq.
Qed.


End StatsManagerFacts.

(** ** More on admission and dispatch *)

Section MoreDispatch.
Context {F : Type} `{FrontierManager F}.
Implicit Types (s : Scheduler.t F) (request : Request).

Lemma has_pending_requests_true s :
  has_pending_requests s = true ↔ _pending_requests s ≠ [].
Proof.
  unfold has_pending_requests, __len__. rewrite bool_decide_eq_true.
  destruct (_pending_requests s); simpl; split; intros; try done; lia.
Qed.

(** X4: [enqueue_request] accepts a request exactly when its
    [redirect_times] is at most 0 (a missing entry counts as 0, a negative
    one is a seed too) or redirects are enabled. *)
Theorem enqueue_request_accepts_iff s request :
  result_of (enqueue_request request s) = true ↔
  redirect_times request ≤ 0 ∨ redirect_enabled s = true.
Proof.
  destruct (_request_is_redirected request) eqn:Hr.
  - pose proof (proj1 (redirected_iff request) Hr) as Hdepth.
    destruct (redirect_enabled s) eqn:He.
    + rewrite enqueue_request_redirect by done. split; [by right|done].
    + rewrite enqueue_request_reject by done. unfold result_of. simpl.
      split; [done|]. intros [?|?]; [lia|done].
  - pose proof (proj1 (not_redirected_iff request) Hr) as Hdepth.
    rewrite enqueue_request_seed by done. split; [by left|done].
Qed.

(** X5: while [has_pending_requests] holds, [next_request] returns the
    oldest buffered request, whatever the frontier and the downloader say,
    and the rest of the buffer keeps its order at the front of the new
    buffer. *)
Theorem next_request_returns_oldest s :
  has_pending_requests s = true →
  result_of (next_request s) = head (_pending_requests s) ∧
  result_of (next_request s) ≠ None ∧
  tail (_pending_requests s) `prefix_of` _pending_requests (state_of (next_request s)).
Proof.
  intros Hpending. apply has_pending_requests_true in Hpending.
  rewrite next_request_eq.
  destruct (if refills s then _ else _) as [batch f].
  destruct (_pending_requests s) as [|request rest]; [done|].
  unfold result_of, state_of. simpl. repeat split; [done|].
  by apply prefix_app_r.
Qed.

(** X6: [next_request] returns [None] exactly when the buffer is empty and
    no request arrives: either there is no refill (frontier finished, or
    no room in the downloader) or the frontier answers with an empty
    batch. *)
Theorem next_request_none_iff s :
  result_of (next_request s) = None ↔
  _pending_requests s = [] ∧
  (refills s = false ∨ (get_next_requests (frontier s)).1 = []).
Proof.
  rewrite next_request_eq. destruct (refills s).
  - destruct (get_next_requests (frontier s)) as [batch f]. unfold result_of. simpl.
    destruct (_pending_requests s) as [|r q]; simpl.
    + destruct batch; simpl; split; try done.
      * by intros _; split; [|right].
      * intros [_ [?|?]]; done.
    + split; [done|]. by intros [? _].
  - unfold result_of. simpl. rewrite app_nil_r.
    destruct (_pending_requests s) as [|r q]; simpl.
    + split; [|done]. by intros _; split; [|left].
    + split; [done|]. by intros [? _].
Qed.

(** X7: a [next_request] that returns [None] leaves the buffer empty and
    sends nothing to the stats collector; the only call it can have made
    is the one [get_next_requests] that came back empty. *)
Theorem next_request_none_is_quiet s :
  result_of (next_request s) = None →
  _pending_requests (state_of (next_request s)) = [] ∧
  has_pending_requests (state_of (next_request s)) = false ∧
  calls_of (next_request s) = if refills s then [FrontierGetNextRequests []] else [].
Proof.
  intros Hnone. pose proof (proj1 (next_request_none_iff s) Hnone) as [Hempty Hwhy].
  rewrite next_request_eq in *. rewrite Hempty in *.
  destruct (refills s).
  - destruct Hwhy as [?|Hbatch]; [done|].
    destruct (get_next_requests (frontier s)) as [batch f]. simpl in Hbatch. by subst batch.
  - done.
Qed.

End MoreDispatch.

(** ** The generator of [process_spider_output] *)

Section GeneratorFacts.
Context {F : Type} `{FrontierManager F}.
Implicit Types (s : Scheduler.t F) (response : Response) (result rest : list Element).

Lemma process_spider_output_eq response result s :
  process_spider_output response result s =
    (omap (λ e, match e with ElementRequest _ => None | _ => Some e end) result,
     with_frontier (page_crawled response (links_of result) (frontier s)) s,
     [FrontierPageCrawled response (links_of result)] ++
     StatsManager.add_crawled_page (stats_manager s) (status response)
       (Z.of_nat (length (links_of result)))).
Proof. done. Qed.

Lemma resume_yield response rest links s element g :
  result_of (resume response rest links s) = (Some element, g) →
  is_request element = false ∧
  state_of (resume response rest links s) = s ∧
  calls_of (resume response rest links s) = [].
Proof.
  revert links. induction rest as [|e rest IH]; intros links.
  - done.
  - destruct e as [request|item]; simpl.
    + apply IH.
    + unfold result_of. simpl. intros [= <- _]. done.
Qed.

(** X8: a [next] on the generator that yields an element has reported
    nothing yet: the element is never a [Request], the scheduler is
    exactly as it was and no call has reached the frontier or the stats
    collector.  A consumer that stops before the generator is exhausted
    leaves the frontier unaware of the page. *)
Theorem generator_next_yield_is_silent (g : Generator) s element :
  (result_of (generator_next g s)).1 = Some element →
  is_request element = false ∧
  state_of (generator_next g s) = s ∧
  calls_of (generator_next g s) = [].
Proof.
  destruct g as [response rest links|]; simpl; [|done].
  destruct (result_of (resume response rest links s)) as [o g'] eqn:Hres.
  simpl. intros ->. by eapply resume_yield.
Qed.

Lemma drain_suspended response rest : ∀ links (fuel : nat) s,
  (length rest < fuel)%nat →
  drain fuel (Suspended response rest links) s =
    (omap (λ e, match e with ElementRequest _ => None | _ => Some e end) rest,
     with_frontier (page_crawled response (links ++ links_of rest) (frontier s)) s,
     [FrontierPageCrawled response (links ++ links_of rest)] ++
     StatsManager.add_crawled_page (stats_manager s) (status response)
       (Z.of_nat (length (links ++ links_of rest)))).
Proof.
  induction rest as [|e rest IH]; intros links fuel s Hfuel.
  - destruct fuel as [|fuel]; [simpl in Hfuel; lia|].
    unfold links_of. simpl. by rewrite app_nil_r.
  - destruct fuel as [|fuel]; [simpl in Hfuel; lia|]. simpl in Hfuel.
    destruct e as [request|item].
    + specialize (IH (links ++ [request]) (S fuel) s ltac:(lia)).
      unfold links_of in *. cbn [omap list_omap]. rewrite <- app_assoc in IH. exact IH.
    + specialize (IH links fuel s ltac:(lia)).
      cbn [drain generator_next resume].
      cbv beta iota zeta delta [mbind M_bind mret M_ret fst snd].
      rewrite IH. unfold links_of. done.
Qed.

(** X9: draining the generator is the same as the whole of
    [process_spider_output]: a consumer that calls [next] until
    [StopIteration] (any number of allowed calls above the length of the
    spider's output will do) collects the non-request elements in order and
    causes one [page_crawled] report and one [add_crawled_page], after the
    last element. *)
Theorem drain_is_process_spider_output response result (fuel : nat) s :
  (length result < fuel)%nat →
  drain fuel (spider_output_generator response result) s =
  process_spider_output response result s.
Proof.
  intros Hfuel. unfold spider_output_generator.
  by rewrite drain_suspended, process_spider_output_eq.
Qed.

(** X10: [process_spider_output] sorts the spider's output without losing
    or inventing anything: no [Request] is yielded, the links reported to
    the frontier are the requests of the output in their order, the
    yielded elements and the reported links together are a rearrangement
    of the output, and the pending buffer is not touched. *)
Theorem process_spider_output_partition response result s :
  let '(yielded, s', calls) := process_spider_output response result s in
  Forall (λ e, is_request e = false) yielded ∧
  reported_links calls = links_of result ∧
  (ElementRequest <$> links_of result) ++ yielded ≡ₚ result ∧
  (length (links_of result) + length yielded = length result)%nat ∧
  _pending_requests s' = _pending_requests s.
Proof.
  rewrite process_spider_output_eq. unfold links_of.
  split; [|split; [|split; [|split]]].
  - induction result as [|[r|i] result IH]; simpl; [done|done|by constructor].
  - unfold reported_links. simpl. by rewrite app_nil_r.
  - induction result as [|[r|i] result IH]; simpl; [done|by f_equiv|].
    rewrite <- Permutation_middle. by f_equiv.
  - induction result as [|[r|i] result IH]; [done|..];
      unfold omap in *; simpl in *; lia.
  - done.
Qed.

End GeneratorFacts.

(** ** Accounting over runs *)

Lemma process_exception_eq {F : Type} `{FrontierManager F}
    (request : Request) (exception : PyException) (s : Scheduler.t F) :
  process_exception request exception s =
    (tt, with_frontier
           (request_error request (_get_exception_code exception) (frontier s)) s,
     [FrontierRequestError request (_get_exception_code exception)] ++
     StatsManager.add_request_error (stats_manager s) (_get_exception_code exception)).
Proof. done. Qed.

(** Splits a step into the paths the code can take and puts the result of
    each in closed form. *)
Ltac step_cases op s :=
  let request := fresh "request" in
  let Hr := fresh "Hr" in
  let He := fresh "He" in
  let Hrefill := fresh "Hrefill" in
  let Hbatch := fresh "Hbatch" in
  destruct op as [request| | |];
  unfold step; cbv beta iota zeta delta [mbind M_bind mret M_ret];
  [ destruct (_request_is_redirected request) eqn:Hr;
    [ destruct (redirect_enabled s) eqn:He;
      [ rewrite enqueue_request_redirect by done
      | rewrite enqueue_request_reject by done ]
    | rewrite enqueue_request_seed by done ]
  | rewrite next_request_eq; destruct (refills s) eqn:Hrefill;
    [ destruct (get_next_requests (frontier s)) as [? ?] eqn:Hbatch | ];
    cbv zeta; destruct (_pending_requests s ++ _) as [|? ?]
  | rewrite process_spider_output_eq
  | rewrite process_exception_eq ];
  unfold result_of, state_of, calls_of;
  cbn [fst snd app head tail StatsManager.add_crawled_page
       StatsManager.add_request_error StatsManager._inc_value].

Section Accounting.
Context {F : Type} `{FrontierManager F}.
Implicit Types (s : Scheduler.t F) (ops : list Op) (stats : gmap string Z).

Lemma step_keeps_stats_manager op s r s' cs :
  step_spec s op r s' cs → stats_manager s' = stats_manager s.
Proof. by destruct 1. Qed.

Lemma run_ops ops : ∀ s, step_op <$> (run ops s).1 = ops.
Proof.
  induction ops as [|op ops IH]; intros s; [done|].
  rewrite run_cons. cbn [fst fmap list_fmap step_op]. f_equal. apply IH.
Qed.

Lemma flat_map_nested {A B C : Type} (f : A → list B) (g : B → list C) (l : list A) :
  flat_map g (flat_map f l) = flat_map (λ x, flat_map g (f x)) l.
Proof.
  induction l as [|x l IH]; [done|]. simpl. by rewrite flat_map_app, IH.
Qed.

Lemma flat_map_step_op {X : Type} (g : Op → list X) ops s :
  flat_map (λ st, g (step_op st)) (run ops s).1 = flat_map g ops.
Proof.
  rewrite <- (run_ops ops s) at 2. generalize (run ops s).1. intros steps.
  induction steps as [|st steps IH]; [done|]. simpl. by rewrite IH.
Qed.

(** A counter that every step raises by the length of [g] of the step is
    raised by a run by the length of [g] over all its steps. *)
Lemma run_counter {X : Type} (variable : string) (g : Step → list X) :
  (∀ op s stats,
     counter (collected (calls_of (step op s)) stats)
       (StatsManager._get_stats_name (stats_manager s) variable) =
     counter stats (StatsManager._get_stats_name (stats_manager s) variable) +
     Z.of_nat (length (g {| step_op := op; step_result := result_of (step op s);
                            step_calls := calls_of (step op s) |}))) →
  ∀ ops s stats,
    counter (collected (flat_map step_calls (run ops s).1) stats)
      (StatsManager._get_stats_name (stats_manager s) variable) =
    counter stats (StatsManager._get_stats_name (stats_manager s) variable) +
    Z.of_nat (length (flat_map g (run ops s).1)).
Proof.
  intros Hstep. induction ops as [|op ops IH]; intros s stats.
  - simpl. lia.
  - rewrite run_cons. cbn [fst flat_map step_calls].
    rewrite collected_app, length_app.
    pose proof (step_keeps_stats_manager _ _ _ _ _ (step_sound op s)) as Hsm.
    rewrite <- Hsm at 1. rewrite IH, Hsm, Hstep. lia.
Qed.

(** X11: the returned counter counts the dispatches: over any run,
    [returned_requests_count] grows by exactly the number of requests
    [next_request] returned ([None] answers are not counted). *)
Theorem returned_requests_count_is_dispatched ops s stats :
  let key := StatsManager._get_stats_name (stats_manager s) "returned_requests_count" in
  counter (collected (flat_map step_calls (run ops s).1) stats) key =
  counter stats key + Z.of_nat (length (flat_map dispatched (run ops s).1)).
Proof.
  apply (run_counter "returned_requests_count" dispatched).
  clear. intros op s stats. step_cases op s; unfold dispatched; cbn [step_result length];
    read_counter.
Qed.

(** X12: fresh requests reach the frontier one by one and in order: over
    any run, the requests passed to [add_seeds] are exactly the
    non-redirected requests the engine enqueued, in the order of the
    [enqueue_request] calls, and [seeds_count] grows by their number. *)
Theorem seeds_reach_frontier_in_order ops s stats :
  let key := StatsManager._get_stats_name (stats_manager s) "seeds_count" in
  seeded (flat_map step_calls (run ops s).1) = seeds_of ops ∧
  counter (collected (flat_map step_calls (run ops s).1) stats) key =
  counter stats key + Z.of_nat (length (seeds_of ops)).
Proof.
  intros key. subst key.
  assert (Hseeded : ∀ ops s, seeded (flat_map step_calls (run ops s).1) = seeds_of ops).
  { clear. induction ops as [|op ops IH]; intros s; [done|].
    rewrite run_cons. cbn [fst flat_map step_calls]. unfold seeded, seeds_of in *.
    rewrite flat_map_app, IH. cbn [flat_map]. f_equal.
    step_cases op s; simpl; by rewrite ?Hr. }
  split; [apply Hseeded|].
  rewrite <- (Hseeded ops s).
  unfold seeded at 1. rewrite flat_map_nested.
  apply (run_counter "seeds_count" (λ st, seeded (step_calls st))).
  clear. intros op s stats. step_cases op s; unfold seeded; cbn [step_calls flat_map app length];
    read_counter.
Qed.

(** X13: the redirected counter counts the redirect continuations that
    went into the buffer: over any run, [redirected_requests_count] grows
    by exactly the number of redirect continuations [enqueue_request]
    accepted; refused ones and seeds are not counted. *)
Theorem redirected_requests_count_is_accepted ops s stats :
  let key := StatsManager._get_stats_name (stats_manager s) "redirected_requests_count" in
  counter (collected (flat_map step_calls (run ops s).1) stats) key =
  counter stats key + Z.of_nat (length (flat_map entered_redirect (run ops s).1)).
Proof.
  apply (run_counter "redirected_requests_count" entered_redirect).
  clear. intros op s stats.
  step_cases op s; unfold entered_redirect; cbn [step_op step_result]; rewrite ?Hr;
    cbn [length]; read_counter.
Qed.

(** X14: the outcome counters count the engine's reports: over any run,
    [request_errors_count] grows by the number of [process_exception]
    calls, [crawled_pages_count] by the number of spider outputs passed to
    [process_spider_output], and [links_extracted_count] by the number of
    links reported to the frontier through [page_crawled]. *)
Theorem outcome_counters_match_reports ops s stats :
  let calls := flat_map step_calls (run ops s).1 in
  let name := StatsManager._get_stats_name (stats_manager s) in
  counter (collected calls stats) (name "request_errors_count") =
    counter stats (name "request_errors_count") + Z.of_nat (length (failures_of ops)) ∧
  counter (collected calls stats) (name "crawled_pages_count") =
    counter stats (name "crawled_pages_count") + Z.of_nat (length (pages_of ops)) ∧
  counter (collected calls stats) (name "links_extracted_count") =
    counter stats (name "links_extracted_count") + Z.of_nat (length (reported_links calls)).
Proof.
  intros calls name. subst calls name. split; [|split].
  - unfold failures_of. rewrite <- (flat_map_step_op _ ops s).
    apply (run_counter "request_errors_count").
    clear. intros op s stats. step_cases op s; cbn [step_op length]; read_counter.
  - unfold pages_of. rewrite <- (flat_map_step_op _ ops s).
    apply (run_counter "crawled_pages_count").
    clear. intros op s stats. step_cases op s; cbn [step_op length]; read_counter.
  - unfold reported_links. rewrite flat_map_nested.
    apply (run_counter "links_extracted_count").
    clear. intros op s stats.
    step_cases op s; cbn [step_calls flat_map app length]; rewrite ?app_nil_r; read_counter.
Qed.

Lemma step_pulled op s :
  pulled (calls_of (step op s)) =
  entered_refill {| step_op := op; step_result := result_of (step op s);
                    step_calls := calls_of (step op s) |}.
Proof. step_cases op s; done. Qed.

Lemma run_pulled ops : ∀ s,
  pulled (flat_map step_calls (run ops s).1) = flat_map entered_refill (run ops s).1.
Proof.
  induction ops as [|op ops IH]; intros s; [done|].
  rewrite run_cons. cbn [fst flat_map step_calls]. unfold pulled in *.
  by rewrite flat_map_app, IH, <- (step_pulled op s).
Qed.

Lemma flat_map_nil_inv {A B : Type} (g : A → list B) (l : list A) :
  flat_map g l = [] → Forall (λ x, g x = []) l.
Proof.
  induction l as [|x l IH]; simpl; [by constructor|].
  intros Hnil. apply app_eq_nil in Hnil as [? ?]. constructor; auto.
Qed.

(** X15: with redirects disabled the scheduler dispatches nothing but what
    the frontier handed out: over any run, the requests first in the
    buffer followed by all the batches [get_next_requests] returned, in
    order, are the requests [next_request] returned followed by what is
    left in the buffer. *)
Theorem dispatch_only_frontier_requests ops s :
  redirect_enabled s = false →
  _pending_requests s ++ pulled (flat_map step_calls (run ops s).1) =
  flat_map dispatched (run ops s).1 ++ _pending_requests (run ops s).2.
Proof.
  intros Hoff. rewrite <- next_request_fifo, run_pulled. f_equal.
  pose proof (flat_map_nil_inv _ _ (run_no_redirect ops s Hoff)) as Hnone.
  induction Hnone as [|st steps Hst _ IH]; [done|].
  simpl. unfold entered at 1. by rewrite Hst, IH.
Qed.

(** X16: the pending gauge of a whole crawl.  After [open], any run of the
    engine and [close], the collector shows under
    [pending_requests_count] the number of requests still in the buffer,
    which is what was buffered at the start plus what entered during the
    run minus what was dispatched; and [close] has not removed them. *)
Theorem session_pending_requests_count (spider reason : string) ops s stats :
  let steps := (run ops (state_of (open spider s))).1 in
  let '(calls, s') := session spider reason ops s in
  collected calls stats
    !! StatsManager._get_stats_name (stats_manager s) "pending_requests_count" =
    Some (__len__ s') ∧
  __len__ s' =
    __len__ s + Z.of_nat (length (flat_map entered steps)) -
    Z.of_nat (length (flat_map dispatched steps)).
Proof.
  unfold session.
  assert (Hopen : ∃ f c, open spider s = (tt, with_frontier f s, c)).
  { unfold open. run_method. destruct (negb (auto_start (frontier s))).
    - by eexists _, _.
    - exists (frontier s). eexists. by rewrite with_frontier_same. }
  destruct Hopen as (f & c1 & ->). unfold state_of. cbn [fst snd].
  pose proof (next_request_fifo ops (with_frontier f s)) as Hfifo.
  assert (Hsm : ∀ ops s0, stats_manager (run ops s0).2 = stats_manager s0).
  { clear. induction ops as [|op ops IH]; intros s0; [done|].
    rewrite run_cons. cbn [snd]. rewrite IH.
    apply (step_keeps_stats_manager _ _ _ _ _ (step_sound op s0)). }
  specialize (Hsm ops (with_frontier f s)).
  destruct (run ops (with_frontier f s)) as [steps s2]. cbn [fst snd] in *.
  split.
  - rewrite !collected_app. unfold collected at 1.
    cbn [foldl collect stats_manager with_frontier StatsManager.set_pending_requests
         StatsManager._set_value].
    rewrite Hsm. cbn [stats_manager with_frontier].
    by rewrite lookup_insert_eq.
  - apply (f_equal length) in Hfifo. rewrite !length_app in Hfifo.
    unfold __len__. cbn [_pending_requests with_frontier] in *. lia.
Qed.

Lemma run_keeps_crawler ops : ∀ s, crawler (run ops s).2 = crawler s.
Proof.
  induction ops as [|op ops IH]; intros s; [done|].
  rewrite run_cons. cbn [snd]. rewrite IH.
  apply (step_frame _ _ _ _ _ (step_sound op s)).
Qed.

Lemma no_room_no_refill s : total_concurrency (crawler s) ≤ 0 → refills s = false.
Proof.
  intros Hcap. destruct (refills s) eqn:Hrefill; [|done].
  apply refills_true in Hrefill as [_ Hroom]. unfold __len__ in Hroom. lia.
Qed.

(** X17: a downloader that reports no capacity ([total_concurrency] at
    most 0) cuts the scheduler off from the frontier: over any run
    [get_next_requests] is never called, and what [next_request] returns
    is only what was buffered at the start and the redirect continuations
    accepted since, in order. *)
Theorem no_capacity_no_pull ops s :
  total_concurrency (crawler s) ≤ 0 →
  pulls (flat_map step_calls (run ops s).1) = 0%nat ∧
  _pending_requests s ++ flat_map entered_redirect (run ops s).1 =
  flat_map dispatched (run ops s).1 ++ _pending_requests (run ops s).2.
Proof.
  intros Hcap.
  assert (Hquiet : ∀ op s0, total_concurrency (crawler s0) ≤ 0 →
            pulls (calls_of (step op s0)) = 0%nat ∧
            entered_refill {| step_op := op; step_result := result_of (step op s0);
                              step_calls := calls_of (step op s0) |} = []).
  { clear. intros op s0 Hcap. pose proof (no_room_no_refill s0 Hcap) as Hno.
    rewrite <- step_pulled. step_cases op s0; try done; congruence. }
  assert (Hrun : ∀ ops s0, total_concurrency (crawler s0) ≤ 0 →
            pulls (flat_map step_calls (run ops s0).1) = 0%nat ∧
            flat_map entered (run ops s0).1 = flat_map entered_redirect (run ops s0).1).
  { clear -Hquiet. induction ops as [|op ops IH]; intros s0 Hcap; [done|].
    rewrite run_cons. cbn [fst flat_map step_calls].
    destruct (Hquiet op s0 Hcap) as [Hp He].
    destruct (IH (state_of (step op s0))) as [IHp IHe].
    { by rewrite (proj1 (step_frame _ _ _ _ _ (step_sound op s0))). }
    split.
    - unfold pulls in *. rewrite filter_app, length_app. lia.
    - unfold entered at 1. by rewrite He, app_nil_r, IHe. }
  destruct (Hrun ops s Hcap) as [Hp He]. split; [done|].
  rewrite <- He. apply next_request_fifo.
Qed.

(** X18: the frontier's life cycle over a whole crawl.  Among all the
    calls of [open], any run of the engine and [close], the frontier is
    started by [open] alone, and only when it is not set to start by
    itself, and it is stopped exactly once, by [close], after everything
    else. *)
Theorem session_lifecycle (spider reason : string) ops s :
  lifecycle (session spider reason ops s).1 =
  (if auto_start (frontier s) then [] else [FrontierStart spider]) ++
  [FrontierStop reason].
Proof.
  assert (Hstep : ∀ op s0, lifecycle (calls_of (step op s0)) = []).
  { clear. intros op s0. step_cases op s0; done. }
  assert (Hrun : ∀ ops s0, lifecycle (flat_map step_calls (run ops s0).1) = []).
  { clear -Hstep. induction ops as [|op ops IH]; intros s0; [done|].
    rewrite run_cons. cbn [fst flat_map step_calls]. unfold lifecycle in *.
    by rewrite filter_app, Hstep, IH. }
  unfold session.
  assert (Hopen : ∃ f, open spider s =
            (tt, with_frontier f s,
             [LogMsg "Starting frontier" INFO] ++
             if auto_start (frontier s) then [] else [FrontierStart spider])).
  { unfold open. run_method. destruct (auto_start (frontier s)); simpl.
    - exists (frontier s). by rewrite with_frontier_same.
    - by eexists. }
  destruct Hopen as (f & ->).
  specialize (Hrun ops (with_frontier f s)).
  destruct (run ops (with_frontier f s)) as [steps s2]. cbn [fst snd] in *.
  unfold lifecycle in *. unfold close. run_method. cbn [fst].
  rewrite !filter_app, Hrun.
  by destruct (auto_start (frontier s)).
Qed.

End Accounting.

(** ** More concrete runs *)

Lemma add_crawled_page_other_status_witness :
  200 ≠ 404 ∧
  counter (collected (StatsManager.add_crawled_page StatsManager.__init__ 200 3) ∅)
    "crawlfrontier/crawled_pages_count/404" =
  counter ∅ "crawlfrontier/crawled_pages_count/404".
Proof.
  split; [done|].
  apply (add_crawled_page_other_status StatsManager.__init__ 200 404 3 ∅). done.
Defined.

Lemma next_request_returns_oldest_witness :
  has_pending_requests (busy_scheduler 3 true 2) = true ∧
  result_of (next_request (busy_scheduler 3 true 2)) =
    head (_pending_requests (busy_scheduler 3 true 2)) ∧
  result_of (next_request (busy_scheduler 3 true 2)) ≠ None ∧
  tail (_pending_requests (busy_scheduler 3 true 2))
    `prefix_of` _pending_requests (state_of (next_request (busy_scheduler 3 true 2))).
Proof.
  split; [reflexivity|].
  apply (next_request_returns_oldest (busy_scheduler 3 true 2)). reflexivity.
Defined.

Lemma next_request_none_is_quiet_witness :
  result_of (next_request (fresh_scheduler 3 true 0)) = None ∧
  _pending_requests (state_of (next_request (fresh_scheduler 3 true 0))) = [] ∧
  has_pending_requests (state_of (next_request (fresh_scheduler 3 true 0))) = false ∧
  calls_of (next_request (fresh_scheduler 3 true 0)) =
    if refills (fresh_scheduler 3 true 0) then [FrontierGetNextRequests []] else [].
Proof.
  split; [reflexivity|].
  apply (next_request_none_is_quiet (fresh_scheduler 3 true 0)). reflexivity.
Defined.

Lemma generator_next_yield_is_silent_witness :
  (result_of (generator_next (spider_output_generator page_response page_result)
                (fresh_scheduler 3 true 2))).1 = Some (ElementItem "title") ∧
  is_request (ElementItem "title") = false ∧
  state_of (generator_next (spider_output_generator page_response page_result)
              (fresh_scheduler 3 true 2)) = fresh_scheduler 3 true 2 ∧
  calls_of (generator_next (spider_output_generator page_response page_result)
              (fresh_scheduler 3 true 2)) = [].
Proof.
  split; [reflexivity|].
  apply (generator_next_yield_is_silent
           (spider_output_generator page_response page_result)
           (fresh_scheduler 3 true 2) (ElementItem "title")).
  reflexivity.
Defined.

Lemma drain_is_process_spider_output_witness :
  (length page_result < 5)%nat ∧
  drain 5 (spider_output_generator page_response page_result) (fresh_scheduler 3 true 2) =
  process_spider_output page_response page_result (fresh_scheduler 3 true 2).
Proof.
  split; [simpl; lia|].
  apply (drain_is_process_spider_output page_response page_result 5
           (fresh_scheduler 3 true 2)).
  simpl. lia.
Defined.

Lemma dispatch_only_frontier_requests_witness :
  redirect_enabled (fresh_scheduler 2 false 2) = false ∧
  _pending_requests (fresh_scheduler 2 false 2) ++
    pulled (flat_map step_calls (run mixed_run (fresh_scheduler 2 false 2)).1) =
  flat_map dispatched (run mixed_run (fresh_scheduler 2 false 2)).1 ++
    _pending_requests (run mixed_run (fresh_scheduler 2 false 2)).2.
Proof.
  split; [reflexivity|].
  apply (dispatch_only_frontier_requests mixed_run (fresh_scheduler 2 false 2)).
  reflexivity.
Defined.

Lemma no_capacity_no_pull_witness :
  total_concurrency (crawler (busy_scheduler 3 true 0)) ≤ 0 ∧
  pulls (flat_map step_calls (run mixed_run (busy_scheduler 3 true 0)).1) = 0%nat ∧
  _pending_requests (busy_scheduler 3 true 0) ++
    flat_map entered_redirect (run mixed_run (busy_scheduler 3 true 0)).1 =
  flat_map dispatched (run mixed_run (busy_scheduler 3 true 0)).1 ++
    _pending_requests (run mixed_run (busy_scheduler 3 true 0)).2.
Proof.
  split; [by vm_compute|].
  apply (no_capacity_no_pull mixed_run (busy_scheduler 3 true 0)). by vm_compute.
Defined.
